(** * jaxonnxruntime: the Mod and Slice operator handlers

    A shallow embedding of [jaxonnxruntime/onnx_ops/mod.py] and
    [jaxonnxruntime/onnx_ops/slice.py], with the part of the host tensor
    algebra (jax.numpy / jax.lax) the two translation functions call.

    Conventions of the embedding:
    - an operand is an n-dimensional integer array: a shape and a row-major
      buffer ([ndarray]) of the integers the caller passes;
      floating-point dtypes are outside the embedding;
    - the host computes on int32, its default integer type: an entry
      outside that range is wrapped to it when it enters a host
      operation ([to_int32]);
    - a Python exception is a value of [exn]; a call that can raise returns
      [result A];
    - a local variable that may be unbound when it is read is an [option];
    - both translation functions are wrapped in [jax.jit], so the Python
      body runs on traced arrays: shapes and lengths are static, entries
      are not.  An exception of the body is raised when the function is
      traced, that is, at the call;
    - an operation that needs static integers, as [jax.lax.slice] does
      for its index arguments, cannot read the entries of a traced array
      and raises TypeError ([as_static_sequence]). *)

From Stdlib Require Import ZArith List Bool Lia.
From stdpp Require Import gmap strings.
Import ListNotations.

(** ** Exceptions and results *)

Inductive exn : Type :=
| AssertionError
| IndexError
| ValueError
| TypeError
| UnboundLocalError.

Inductive result (A : Type) : Type :=
| Ok (a : A)
| Raise (e : exn).

Arguments Ok {A} a.
Arguments Raise {A} e.

Definition bind {A B : Type} (r : result A) (k : A -> result B) : result B :=
  match r with
  | Ok a => k a
  | Raise e => Raise e
  end.

Definition py_assert (b : bool) : result unit :=
  if b then Ok tt else Raise AssertionError.

Declare Scope py_scope.
Delimit Scope py_scope with py.
Notation "x <- e ;; k" := (bind e (fun x => k))
  (at level 100, e at next level, right associativity) : py_scope.
Notation "e ;;; k" := (bind e (fun _ => k))
  (at level 100, k at level 200, right associativity) : py_scope.
Open Scope py_scope.

(** ** Arrays *)

Record ndarray : Type := mk_ndarray { shape : list nat; data : list Z }.

Definition numel (s : list nat) : nat := fold_right Nat.mul 1 s.

Definition well_formed (t : ndarray) : Prop :=
  length (data t) = numel (shape t).

(** All multi-indices of a shape, in row-major order. *)
Fixpoint indices (s : list nat) : list (list nat) :=
  match s with
  | [] => [[]]
  | d :: s' => flat_map (fun i => map (cons i) (indices s')) (seq 0 d)
  end.

(** Row-major position of a multi-index in the buffer. *)
Fixpoint offset (s idx : list nat) : nat :=
  match s, idx with
  | d :: s', i :: idx' => i * numel s' + offset s' idx'
  | _, _ => 0
  end.

Definition item (t : ndarray) (idx : list nat) : Z :=
  nth (offset (shape t) idx) (data t) 0%Z.

Definition tabulate (s : list nat) (f : list nat -> Z) : ndarray :=
  {| shape := s; data := map f (indices s) |}.

(** A rank-1 array from a Python sequence, a rank-0 array from a number. *)
Definition vector (l : list Z) : ndarray :=
  {| shape := [length l]; data := l |}.

Definition scalar (z : Z) : ndarray := {| shape := []; data := [z] |}.

(** [len(t)]: the leading dimension; a rank-0 array has no length. *)
Definition py_len (t : ndarray) : result nat :=
  match shape t with
  | [] => Raise TypeError
  | d :: _ => Ok d
  end.

(** ** Broadcasting (jax.numpy)

    Shapes are aligned at their trailing dimension: the shorter one is
    padded with ones on the left, and two sizes are compatible when they
    are equal or one of them is 1. *)

Definition pad_shape (n : nat) (s : list nat) : list nat :=
  repeat 1 (n - length s) ++ s.

Definition broadcast_dim (d1 d2 : nat) : option nat :=
  if d1 =? d2 then Some d1
  else if d1 =? 1 then Some d2
  else if d2 =? 1 then Some d1
  else None.

Fixpoint broadcast_dims (s1 s2 : list nat) : option (list nat) :=
  match s1, s2 with
  | [], [] => Some []
  | d1 :: s1', d2 :: s2' =>
      match broadcast_dim d1 d2, broadcast_dims s1' s2' with
      | Some d, Some s => Some (d :: s)
      | _, _ => None
      end
  | _, _ => None
  end.

Definition broadcast_shapes (s1 s2 : list nat) : option (list nat) :=
  let n := Nat.max (length s1) (length s2) in
  broadcast_dims (pad_shape n s1) (pad_shape n s2).

(** The index of operand [s] read for output index [idx]: the leading
    output axes the operand lacks are dropped, and an axis of size 1 is
    read at 0. *)
Fixpoint bcast_axes (s idx : list nat) : list nat :=
  match s, idx with
  | d :: s', i :: idx' => (if d =? 1 then 0 else i) :: bcast_axes s' idx'
  | _, _ => []
  end.

Definition bcast_index (s idx : list nat) : list nat :=
  bcast_axes s (skipn (length idx - length s) idx).

(** The error of an elementwise operation on shapes that do not
    broadcast: operands of different rank are rejected by the rank
    promotion of jax.numpy with ValueError, operands of equal rank by the
    primitive itself with TypeError. *)
Definition broadcast_error (s1 s2 : list nat) : exn :=
  if length s1 =? length s2 then TypeError else ValueError.

Definition broadcast_binop (f : Z -> Z -> Z) (a b : ndarray) : result ndarray :=
  match broadcast_shapes (shape a) (shape b) with
  | None => Raise (broadcast_error (shape a) (shape b))
  | Some s =>
      Ok (tabulate s (fun idx =>
            f (item a (bcast_index (shape a) idx))
              (item b (bcast_index (shape b) idx))))
  end.

(** ** jnp.mod and jnp.fmod on integer dtypes

    [lax.rem] is the truncating remainder.  [jnp.fmod] is [lax.rem] with a
    zero divisor replaced by one; [jnp.mod] (jnp.remainder) computes the
    same truncating remainder and adds the divisor when the remainder is
    nonzero and its sign differs from the divisor's.  Both work on the
    int32 values of the entries. *)

(** Conversion of an integer to int32, with wrap-around. *)
Definition to_int32 (z : Z) : Z :=
  ((z + 2 ^ 31) mod 2 ^ 32 - 2 ^ 31)%Z.

Definition in_int32 (z : Z) : Prop := (- 2 ^ 31 <= z < 2 ^ 31)%Z.

Definition lax_rem (x y : Z) : Z := Z.rem x y.

Definition guard_zero (x2 : Z) : Z := if (x2 =? 0)%Z then 1%Z else x2.

Definition remainder_elt (x1 x2 : Z) : Z :=
  let x2 := guard_zero x2 in
  let trunc_mod := lax_rem x1 x2 in
  let trunc_mod_not_zero := negb (trunc_mod =? 0)%Z in
  let do_plus :=
    negb (Bool.eqb (trunc_mod <? 0)%Z (x2 <? 0)%Z) && trunc_mod_not_zero in
  if do_plus then (trunc_mod + x2)%Z else trunc_mod.

Definition fmod_elt (x1 x2 : Z) : Z := lax_rem x1 (guard_zero x2).

Definition jnp_mod : ndarray -> ndarray -> result ndarray :=
  broadcast_binop (fun x1 x2 => remainder_elt (to_int32 x1) (to_int32 x2)).

Definition jnp_fmod : ndarray -> ndarray -> result ndarray :=
  broadcast_binop (fun x1 x2 => fmod_elt (to_int32 x1) (to_int32 x2)).

(** ** Node attributes *)

Inductive attr_value : Type :=
| ANone
| AInt (z : Z)
| AInts (l : list Z)
| AStr (s : string).

(** Python's [v == 0] on an attribute value. *)
Definition eq_zero (v : attr_value) : bool :=
  match v with
  | AInt z => (z =? 0)%Z
  | _ => false
  end.

(** ** mod.py: the translation function *)

Definition onnx_mod (input_args : list ndarray) (fmod : attr_value)
  : result ndarray :=
  py_assert (length input_args =? 2) ;;;
  match input_args with
  | [a; b] => if eq_zero fmod then jnp_mod a b else jnp_fmod a b
  | _ => Raise ValueError
  end.

(** ** The array operations slice.py calls *)

Definition jnp_zeros (n : nat) : ndarray := vector (repeat 0%Z n).
Definition jnp_ones (n : nat) : ndarray := vector (repeat 1%Z n).

(** [jnp.array(x.shape, dtype=jnp.int32)] *)
Definition jnp_array_of_shape (s : list nat) : ndarray :=
  vector (map Z.of_nat s).

(** [input_args[i]] on the argument tuple. *)
Definition getitem (input_args : list ndarray) (i : nat) : result ndarray :=
  match nth_error input_args i with
  | Some v => Ok v
  | None => Raise IndexError
  end.

(** One-way broadcast of [t] to shape [s]. *)
Definition broadcast_to (t : ndarray) (s : list nat) : result ndarray :=
  match broadcast_shapes (shape t) s with
  | Some s' =>
      if bool_decide (s' = s)
      then Ok (tabulate s (fun idx => item t (bcast_index (shape t) idx)))
      else Raise ValueError
  | None => Raise ValueError
  end.

(** One scattered assignment [buf[i] = v]: a negative index counts from
    the end, and an index still out of range is dropped. *)
Definition scatter_one (buf : list Z) (i v : Z) : list Z :=
  let n := Z.of_nat (length buf) in
  let i := if (i <? 0)%Z then (i + n)%Z else i in
  if ((0 <=? i) && (i <? n))%Z
  then <[Z.to_nat i := to_int32 v]> buf
  else buf.

Fixpoint scatter (buf : list Z) (idx vals : list Z) : list Z :=
  match idx, vals with
  | i :: idx', v :: vals' => scatter (scatter_one buf i v) idx' vals'
  | _, _ => buf
  end.

(** [v.at[index].set(vals)] for a rank-1 int32 array [v].  The values are
    broadcast to the shape of the indexed selection.  An index array
    selects positions of [v]; the index [None] (numpy.newaxis) selects
    all of [v] under a new leading axis.  Repeated indices are applied in
    order. *)
Definition at_set (v : ndarray) (index : option ndarray) (vals : ndarray)
  : result ndarray :=
  match index with
  | Some ix =>
      vals' <- broadcast_to vals (shape ix) ;;
      Ok {| shape := shape v; data := scatter (data v) (data ix) (data vals') |}
  | None =>
      vals' <- broadcast_to vals (1 :: shape v) ;;
      Ok {| shape := shape v; data := map to_int32 (data vals') |}
  end.

(** A traced array read as a sequence of static integers.  Iterating
    over the array gives one traced entry per position of its leading
    axis, and a traced entry cannot be turned into a static integer: only
    an array with no entry can be read, as the empty sequence.  (A rank-0
    array cannot be iterated over.) *)
Definition as_static_sequence (t : ndarray) : result (list Z) :=
  match shape t with
  | 0 :: _ => Ok []
  | _ => Raise TypeError
  end.

(** [jax.lax.slice] on static integers: every axis needs
    [0 <= start <= limit <= dim] and a positive stride; nothing is
    clamped.  The output keeps, on each axis, the positions
    [start, start + stride, ...] below [limit]. *)
Fixpoint slice_dims (s : list nat) (start limit strides : list Z)
  : result (list nat) :=
  match s, start, limit, strides with
  | [], [], [], [] => Ok []
  | d :: s', st :: start', lim :: limit', sp :: strides' =>
      if ((st <? 0) || (Z.of_nat d <? lim) || (lim <? st) || (sp <=? 0))%Z
      then Raise TypeError
      else
        rest <- slice_dims s' start' limit' strides' ;;
        Ok (Z.to_nat ((lim - st + sp - 1) / sp) :: rest)
  | _, _, _, _ => Raise TypeError
  end.

Fixpoint slice_index (start strides : list Z) (idx : list nat) : list nat :=
  match start, strides, idx with
  | st :: start', sp :: strides', i :: idx' =>
      Z.to_nat (st + Z.of_nat i * sp) :: slice_index start' strides' idx'
  | _, _, _ => []
  end.

(** [jax.lax.slice] as slice.py calls it, with traced arrays for the
    start indices, the limit indices and the strides, on the int32
    values of the operand. *)
Definition lax_slice (x start_indices limit_indices strides : ndarray)
  : result ndarray :=
  start <- as_static_sequence start_indices ;;
  limit <- as_static_sequence limit_indices ;;
  steps <- as_static_sequence strides ;;
  out_shape <- slice_dims (shape x) start limit steps ;;
  Ok (tabulate out_shape
        (fun idx => to_int32 (item x (slice_index start steps idx)))).

(** ** slice.py: the translation function *)

Definition onnx_slice (input_args : list ndarray) : result ndarray :=
  match firstn 3 input_args with
  | [x; starts; ends] =>
      n_starts <- py_len starts ;;
      n_ends <- py_len ends ;;
      py_assert (n_starts =? n_ends) ;;;
      bound <-
        (if length input_args <? 3 then
           py_assert (n_starts =? length (shape x)) ;;;
           Ok (None, starts, ends)
         else
           axes <- getitem input_args 3 ;;
           lax_start <- at_set (jnp_zeros (length (shape x))) (Some axes) starts ;;
           lax_end <- at_set (jnp_array_of_shape (shape x)) (Some axes) ends ;;
           Ok (Some axes, lax_start, lax_end)) ;;
      let '(axes, lax_start, lax_end) := bound in
      lax_steps <-
        (if 4 <? length input_args then
           steps <- getitem input_args 4 ;;
           lax_steps <- at_set (jnp_ones (length (shape x))) axes steps ;;
           Ok (Some lax_steps)
         else Ok None) ;;
      lax_steps <-
        match lax_steps with
        | Some v => Ok v
        | None => Raise UnboundLocalError
        end ;;
      lax_slice x lax_start lax_end lax_steps
  | _ => Raise ValueError
  end.

(** ** Function objects and nodes *)

(** A Python function object: its name, its keyword-only parameters and
    what a call [f( *args, **kwargs)] does. *)
Record PyFunction : Type := mk_PyFunction {
  fn_name : string;
  fn_kwonly : list string;
  fn_call : list ndarray -> gmap string attr_value -> result ndarray
}.

(** [def onnx_mod( *input_args, fmod)] *)
Definition onnx_mod_obj : PyFunction :=
  {| fn_name := "onnx_mod";
     fn_kwonly := ["fmod"];
     fn_call := fun args kwargs =>
       match kwargs !! "fmod" with
       | Some fmod =>
           if bool_decide (size kwargs = 1) then onnx_mod args fmod
           else Raise TypeError
       | None => Raise TypeError
       end |}.

(** [def onnx_slice( *input_args)] *)
Definition onnx_slice_obj : PyFunction :=
  {| fn_name := "onnx_slice";
     fn_kwonly := [];
     fn_call := fun args kwargs =>
       if bool_decide (size kwargs = 0) then onnx_slice args
       else Raise TypeError |}.

(** Modelled from the spec: [onnx_node.OnnxNode] is not part of the
    sources.  The spec gives a node its operator type name, its opset
    version, the raw attributes declared in the model and the derived
    mapping attrs_dict filled by preparation. *)
Record OnnxNode : Type := mk_OnnxNode {
  op_type : string;
  opset_version : Z;
  attrs : gmap string attr_value;
  attrs_dict : gmap string attr_value
}.

(** [node.attrs_dict[key] = v] *)
Definition set_attrs_dict (node : OnnxNode) (key : string) (v : attr_value)
  : OnnxNode :=
  {| op_type := op_type node;
     opset_version := opset_version node;
     attrs := attrs node;
     attrs_dict := <[key := v]> (attrs_dict node) |}.

(** [d.get(key, dflt)] *)
Definition dict_get (d : gmap string attr_value) (key : string)
  (dflt : attr_value) : attr_value :=
  match d !! key with
  | Some v => v
  | None => dflt
  end.

(** Modelled from the spec: [onnx_ops_utils.update_node_attrs_dict] is not
    part of the sources.  The spec says attrs_dict is populated by
    preparation with the resolved, defaulted parameters the translation
    function needs, read from the raw attributes: every keyword-only
    parameter of the translation function is entered in attrs_dict with
    the raw attribute of that name, or None when the model does not
    declare it. *)
Definition spec_update_node_attrs_dict (node : OnnxNode)
  (onnx_jax_impl : PyFunction) : OnnxNode :=
  fold_left
    (fun n name => set_attrs_dict n name (dict_get (attrs n) name ANone))
    (fn_kwonly onnx_jax_impl) node.

(** ** The handlers

    The handlers call [onnx_ops_utils.update_node_attrs_dict], which is
    not part of the sources; the section takes it as a parameter.  A
    method that mutates the node returns the node it leaves behind. *)

Section Handlers.

Variable update_node_attrs_dict : OnnxNode -> PyFunction -> OnnxNode.

(** mod.py, class Mod *)

Definition Mod__prepare (node : OnnxNode) (inputs : list ndarray)
  (onnx_jax_impl : PyFunction) : OnnxNode :=
  let node := update_node_attrs_dict node onnx_jax_impl in
  set_attrs_dict node "fmod" (dict_get (attrs node) "fmod" (AInt 0)).

Definition Mod_version_10 (node : OnnxNode) (inputs : list ndarray)
  : OnnxNode * PyFunction :=
  let node := Mod__prepare node inputs onnx_mod_obj in
  (node, onnx_mod_obj).

Definition Mod_version_13 (node : OnnxNode) (inputs : list ndarray)
  : OnnxNode * PyFunction :=
  let node := Mod__prepare node inputs onnx_mod_obj in
  (node, onnx_mod_obj).

(** slice.py, class Slice *)

Definition Slice__prepare (node : OnnxNode) (inputs : list ndarray)
  (onnx_jax_impl : PyFunction) : OnnxNode :=
  update_node_attrs_dict node onnx_jax_impl.

Definition Slice_version_1 (node : OnnxNode) (inputs : list ndarray)
  : OnnxNode * PyFunction :=
  let node := Slice__prepare node inputs onnx_slice_obj in
  (node, onnx_slice_obj).

Definition Slice_version_10 (node : OnnxNode) (inputs : list ndarray)
  : OnnxNode * PyFunction :=
  let node := Slice__prepare node inputs onnx_slice_obj in
  (node, onnx_slice_obj).

Definition Slice_version_11 (node : OnnxNode) (inputs : list ndarray)
  : OnnxNode * PyFunction :=
  let node := Slice__prepare node inputs onnx_slice_obj in
  (node, onnx_slice_obj).

Definition Slice_version_13 (node : OnnxNode) (inputs : list ndarray)
  : OnnxNode * PyFunction :=
  let node := Slice__prepare node inputs onnx_slice_obj in
  (node, onnx_slice_obj).

End Handlers.

(** ** The broadcast rule, as the array-programming convention states it

    Axes are compared from the last one backwards; an axis an operand
    lacks counts as size 1; two sizes are compatible when they are equal
    or one of them is 1, and the output takes the size that is not 1. *)

(** Size of the [i]-th axis counted from the last, 1 where there is none. *)
Definition rdim (s : list nat) (i : nat) : nat := nth i (rev s) 1.

Definition broadcastable (s1 s2 : list nat) : Prop :=
  forall i, rdim s1 i = rdim s2 i \/ rdim s1 i = 1 \/ rdim s2 i = 1.

Definition is_broadcast_of (s1 s2 s : list nat) : Prop :=
  length s = Nat.max (length s1) (length s2) /\
  forall i, rdim s i = if rdim s1 i =? 1 then rdim s2 i else rdim s1 i.




(** * Properties *)

(** ** Elementwise remainder *)







Lemma to_int32_small (z : Z) : in_int32 z -> to_int32 z = z.
Proof.
  unfold in_int32, to_int32. intros H. rewrite Z.mod_small by lia. lia.
Qed.

(** ** Multi-indices and the row-major buffer *)

Section Blocks.
Context {A : Type} (g : nat -> list A) (m : nat).
Hypothesis block_length : forall k, length (g k) = m.

Lemma length_flat_map_block (n a : nat) :
  length (flat_map g (seq a n)) = n * m.
Proof using block_length.
  revert a. induction n as [|n IH]; intros a; simpl; [reflexivity|].
  rewrite length_app, block_length, IH. reflexivity.
Qed.

End Blocks.

Lemma length_indices (s : list nat) : length (indices s) = numel s.
Proof.
  induction s as [|d s IH]; simpl; [reflexivity|].
  rewrite (length_flat_map_block _ (numel s)); [reflexivity|].
  intros k. rewrite length_map. exact IH.
Qed.

Lemma tabulate_well_formed (s : list nat) (f : list nat -> Z) :
  well_formed (tabulate s f).
Proof.
  unfold well_formed, tabulate. simpl.
  rewrite length_map. apply length_indices.
Qed.

(** A multi-index is listed for a shape exactly when it has one entry per
    axis, each below the axis size. *)
Lemma In_indices (s idx : list nat) :
  In idx (indices s) <-> Forall2 lt idx s.
Proof.
  revert idx. induction s as [|d s IH]; intros idx; simpl.
  - split.
    + intros [<-|[]]. constructor.
    + intros H. inversion H. left. reflexivity.
  - rewrite in_flat_map. split.
    + intros (i & Hi & Hin). apply in_seq in Hi.
      apply in_map_iff in Hin as (idx' & <- & Hin').
      constructor; [lia | apply IH; exact Hin'].
    + intros H. inversion H as [|i d' idx' s' Hlt Hrest]; subst.
      exists i. split; [apply in_seq; lia|].
      apply in_map. apply IH. exact Hrest.
Qed.




(** ** Broadcast shapes *)

Lemma broadcast_dim_spec (d1 d2 d : nat) :
  broadcast_dim d1 d2 = Some d <->
  (d1 = d2 \/ d1 = 1 \/ d2 = 1) /\ d = if d1 =? 1 then d2 else d1.
Proof.
  unfold broadcast_dim.
  destruct (Nat.eqb_spec d1 d2), (Nat.eqb_spec d1 1), (Nat.eqb_spec d2 1);
    split; try (intros [= <-]); try (intros [H ->]); try split;
    try lia; try congruence; f_equal; lia.
Qed.

Lemma length_pad_shape (n : nat) (s : list nat) :
  length s <= n -> length (pad_shape n s) = n.
Proof.
  intros H. unfold pad_shape. rewrite length_app, repeat_length. lia.
Qed.

Lemma rdim_overflow (s : list nat) (i : nat) :
  length s <= i -> rdim s i = 1.
Proof.
  intros H. unfold rdim. apply nth_overflow. rewrite length_rev. exact H.
Qed.

Lemma rdim_pad_shape (n : nat) (s : list nat) (i : nat) :
  rdim (pad_shape n s) i = rdim s i.
Proof.
  unfold rdim, pad_shape. rewrite rev_app_distr.
  destruct (Nat.lt_ge_cases i (length s)) as [Hlt|Hge].
  - rewrite app_nth1 by (rewrite length_rev; exact Hlt). reflexivity.
  - rewrite app_nth2 by (rewrite length_rev; exact Hge).
    rewrite (nth_overflow (rev s)) by (rewrite length_rev; exact Hge).
    destruct (Nat.lt_ge_cases (i - length (rev s)) (length (rev (repeat 1 (n - length s)))))
      as [Hin|Hout].
    + assert (Hmem : In (nth (i - length (rev s)) (rev (repeat 1 (n - length s))) 1)
                        (rev (repeat 1 (n - length s))))
        by (apply nth_In; exact Hin).
      apply in_rev in Hmem. apply repeat_spec in Hmem. exact Hmem.
    + apply nth_overflow. exact Hout.
Qed.

Lemma rdim_nth (s : list nat) (i : nat) :
  i < length s -> rdim s i = nth (length s - S i) s 1.
Proof. intros H. unfold rdim. apply rev_nth. exact H. Qed.

Lemma nth_rdim (s : list nat) (j : nat) :
  j < length s -> nth j s 1 = rdim s (length s - S j).
Proof.
  intros H. rewrite rdim_nth by lia. f_equal. lia.
Qed.

(** [broadcast_dims] on shapes of equal rank, axis by axis. *)
Lemma broadcast_dims_Some (l1 l2 s : list nat) :
  broadcast_dims l1 l2 = Some s ->
  length s = length l1 /\ length s = length l2 /\
  forall j, j < length s ->
    broadcast_dim (nth j l1 1) (nth j l2 1) = Some (nth j s 1).
Proof.
  revert l2 s. induction l1 as [|d1 l1 IH]; intros [|d2 l2] s; simpl;
    try discriminate.
  - intros [= <-]. simpl. repeat split. intros j Hj. lia.
  - destruct (broadcast_dim d1 d2) as [d|] eqn:Hd; [|discriminate].
    destruct (broadcast_dims l1 l2) as [s'|] eqn:Hs; [|discriminate].
    intros [= <-]. destruct (IH _ _ Hs) as (Hl1 & Hl2 & Hnth).
    simpl. repeat split; try congruence.
    intros [|j] Hj; [exact Hd | apply Hnth; lia].
Qed.

Lemma broadcast_dims_total (l1 l2 : list nat) :
  length l1 = length l2 ->
  (forall j, j < length l1 ->
     exists d, broadcast_dim (nth j l1 1) (nth j l2 1) = Some d) ->
  exists s, broadcast_dims l1 l2 = Some s.
Proof.
  revert l2. induction l1 as [|d1 l1 IH]; intros [|d2 l2] Hlen Hall;
    simpl in *; try discriminate.
  - eexists. reflexivity.
  - destruct (Hall 0 ltac:(lia)) as [d Hd]. simpl in Hd. rewrite Hd.
    destruct (IH l2 ltac:(lia)) as [s Hs].
    + intros j Hj. apply (Hall (S j)). lia.
    + rewrite Hs. eexists. reflexivity.
Qed.

Lemma broadcast_shapes_sound (s1 s2 s : list nat) :
  broadcast_shapes s1 s2 = Some s ->
  broadcastable s1 s2 /\ is_broadcast_of s1 s2 s.
Proof.
  unfold broadcast_shapes. intros H.
  apply broadcast_dims_Some in H as (Hl1 & Hl2 & Hnth).
  rewrite length_pad_shape in Hl1 by lia.
  assert (Hpos : forall i,
    broadcast_dim (rdim s1 i) (rdim s2 i) = Some (rdim s i)).
  { intros i. destruct (Nat.lt_ge_cases i (length s)) as [Hlt|Hge].
    - specialize (Hnth (length s - S i) ltac:(lia)).
      rewrite <- (rdim_pad_shape (Nat.max (length s1) (length s2)) s1).
      rewrite <- (rdim_pad_shape (Nat.max (length s1) (length s2)) s2).
      rewrite !rdim_nth by (rewrite ?length_pad_shape; lia).
      rewrite !length_pad_shape by lia.
      rewrite Hl1 in Hnth |- *. exact Hnth.
    - rewrite !rdim_overflow by lia. reflexivity. }
  split.
  - intros i. apply (broadcast_dim_spec _ _ (rdim s i)). apply Hpos.
  - split; [exact Hl1|].
    intros i. apply (broadcast_dim_spec (rdim s1 i) (rdim s2 i)). apply Hpos.
Qed.

Lemma broadcast_shapes_complete (s1 s2 : list nat) :
  broadcastable s1 s2 -> exists s, broadcast_shapes s1 s2 = Some s.
Proof.
  intros Hc. unfold broadcast_shapes.
  set (n := Nat.max (length s1) (length s2)).
  apply broadcast_dims_total.
  - rewrite !length_pad_shape by lia. reflexivity.
  - intros j Hj. rewrite length_pad_shape in Hj by lia.
    rewrite !nth_rdim by (rewrite length_pad_shape; lia).
    rewrite !length_pad_shape by lia. rewrite !rdim_pad_shape.
    eexists. apply broadcast_dim_spec. split; [apply Hc | reflexivity].
Qed.

(** ** The Mod translation function *)

Lemma onnx_mod_obj_call (args : list ndarray) (fmod : attr_value) :
  fn_call onnx_mod_obj args {["fmod" := fmod]} = onnx_mod args fmod.
Proof.
  unfold onnx_mod_obj, fn_call. rewrite lookup_singleton_eq.
  rewrite map_size_singleton. reflexivity.
Qed.

Lemma onnx_mod_two (a b : ndarray) (fmod : attr_value) :
  onnx_mod [a; b] fmod = if eq_zero fmod then jnp_mod a b else jnp_fmod a b.
Proof. reflexivity. Qed.






(** C7: for broadcastable operand shapes the output shape of the Mod
    translation function is the standard broadcast of the two input
    shapes (and the output buffer has that many elements); for shapes
    that are not broadcastable the call fails with the error of the host
    operation (ValueError for operands of different rank, TypeError for
    operands of equal rank), which the translation function passes on as
    it is. *)
Theorem onnx_mod_broadcast_shape (a b : ndarray) (fmod : attr_value) :
  onnx_mod [a; b] fmod = (if eq_zero fmod then jnp_mod a b else jnp_fmod a b)
  /\
  (broadcastable (shape a) (shape b) ->
   exists out,
     onnx_mod [a; b] fmod = Ok out /\
     is_broadcast_of (shape a) (shape b) (shape out) /\
     well_formed out)
  /\
  (~ broadcastable (shape a) (shape b) ->
   onnx_mod [a; b] fmod = Raise (broadcast_error (shape a) (shape b)) /\
   jnp_mod a b = Raise (broadcast_error (shape a) (shape b)) /\
   jnp_fmod a b = Raise (broadcast_error (shape a) (shape b))).
Proof.
  split; [reflexivity|]. rewrite onnx_mod_two.
  unfold jnp_mod, jnp_fmod, broadcast_binop.
  destruct (broadcast_shapes (shape a) (shape b)) as [s|] eqn:Hs.
  - apply broadcast_shapes_sound in Hs as [Hc Hb]. split.
    + intros _. destruct (eq_zero fmod); eexists;
        (split; [reflexivity|]); (split; [exact Hb|]);
        apply tabulate_well_formed.
    + intros Hn. contradiction.
  - split.
    + intros Hc. apply broadcast_shapes_complete in Hc as [s Hs'].
      congruence.
    + intros _. destruct (eq_zero fmod); repeat split.
Qed.

Lemma onnx_mod_broadcast_shape_witness :
  (exists out,
     onnx_mod [mk_ndarray [2; 1] [5; -5]%Z; vector [3; -3; 2]%Z] (AInt 0)
       = Ok out /\
     is_broadcast_of [2; 1] [3] (shape out) /\ well_formed out)
  /\
  (onnx_mod [vector [5; -5]%Z; vector [3; -3; 2]%Z] (AInt 0)
     = Raise TypeError /\
   jnp_mod (vector [5; -5]%Z) (vector [3; -3; 2]%Z) = Raise TypeError /\
   jnp_fmod (vector [5; -5]%Z) (vector [3; -3; 2]%Z) = Raise TypeError)
  /\
  (onnx_mod [mk_ndarray [2; 2] [5; -5; 7; -7]%Z; vector [3; -3; 2]%Z] (AInt 0)
     = Raise ValueError /\
   jnp_mod (mk_ndarray [2; 2] [5; -5; 7; -7]%Z) (vector [3; -3; 2]%Z)
     = Raise ValueError /\
   jnp_fmod (mk_ndarray [2; 2] [5; -5; 7; -7]%Z) (vector [3; -3; 2]%Z)
     = Raise ValueError).
Proof.
  split; [|split].
  - apply (proj1 (proj2 (onnx_mod_broadcast_shape
             (mk_ndarray [2; 1] [5; -5]%Z) (vector [3; -3; 2]%Z) (AInt 0)))).
    exact (proj1 (broadcast_shapes_sound [2; 1] [3] [2; 3] eq_refl)).
  - apply (proj2 (proj2 (onnx_mod_broadcast_shape
             (vector [5; -5]%Z) (vector [3; -3; 2]%Z) (AInt 0)))).
    intros H. specialize (H 0). vm_compute in H. lia.
  - apply (proj2 (proj2 (onnx_mod_broadcast_shape
             (mk_ndarray [2; 2] [5; -5; 7; -7]%Z) (vector [3; -3; 2]%Z)
             (AInt 0)))).
    intros H. specialize (H 0). vm_compute in H. lia.
Defined.

(** ** The Slice translation function *)

(** The unpacking [x, starts, ends = input_args[:3]] needs three inputs, so
    the branch guarded by [len(input_args) < 3] is never taken. *)
Lemma onnx_slice_short (input_args : list ndarray) :
  length input_args < 3 -> onnx_slice input_args = Raise ValueError.
Proof.
  intros H. destruct input_args as [|x [|s [|e rest]]];
    try reflexivity. simpl in H. lia.
Qed.

Ltac step_result :=
  match goal with
  | |- context [bind ?r _] =>
      let E := fresh "E" in destruct r eqn:E; simpl
  | |- context [py_assert ?b] => destruct b; simpl
  | |- context [let '(_, _) := ?p in _] => destruct p as [[? ?] ?]; simpl
  | |- exists e, Raise ?x = Raise e => exists x; reflexivity
  end.

(** C5: a call whose starts and ends differ in length fails on the
    assertion at the start of the translation function, whatever the
    other inputs are; no output is produced and nothing is defaulted. *)
Theorem onnx_slice_length_mismatch
  (x starts ends : ndarray) (rest : list ndarray) (n m : nat) :
  py_len starts = Ok n -> py_len ends = Ok m -> n <> m ->
  onnx_slice (x :: starts :: ends :: rest) = Raise AssertionError.
Proof.
  intros Hs He Hne. unfold onnx_slice. cbn [firstn].
  rewrite Hs, He. simpl.
  destruct (Nat.eqb_spec n m); [contradiction | reflexivity].
Qed.

Lemma onnx_slice_length_mismatch_witness :
  onnx_slice [mk_ndarray [2; 3] [1; 2; 3; 4; 5; 6]%Z;
              vector [0; 0]%Z; vector [2]%Z;
              vector [0; 1]%Z; vector [1; 1]%Z] = Raise AssertionError.
Proof.
  apply (onnx_slice_length_mismatch _ _ _ _ 2 1).
  - reflexivity.
  - reflexivity.
  - lia.
Defined.

(** C2 (the code departs from it): with exactly three inputs the
    translation function never returns.  The branch for omitted axes is
    guarded by [len(input_args) < 3], which no call that unpacks three
    inputs satisfies, so the call goes on to read [input_args[3]]: it
    raises IndexError unless a length check has failed before.  For x of
    shape (4,5), starts = [0,0] and ends = [4,5] the call raises
    IndexError where the claim expects x back. *)
Theorem onnx_slice_three_inputs_raise :
  (forall x starts ends : ndarray,
     onnx_slice [x; starts; ends] = Raise IndexError \/
     onnx_slice [x; starts; ends] = Raise AssertionError \/
     onnx_slice [x; starts; ends] = Raise TypeError)
  /\
  (forall (x : ndarray) (starts ends : list Z),
     onnx_slice [x; vector starts; vector ends] =
     if length starts =? length ends
     then Raise IndexError else Raise AssertionError)
  /\
  (forall buf : list Z,
     onnx_slice [mk_ndarray [4; 5] buf; vector [0; 0]%Z; vector [4; 5]%Z]
     = Raise IndexError).
Proof.
  split; [|split].
  - intros x starts ends. unfold onnx_slice. cbn [firstn].
    unfold py_len.
    destruct (shape starts) as [|n ?]; [right; right; reflexivity|].
    destruct (shape ends) as [|m ?]; [right; right; reflexivity|].
    simpl. destruct (n =? m); simpl; auto.
  - intros x starts ends. unfold onnx_slice. simpl.
    destruct (length starts =? length ends); reflexivity.
  - intros buf. reflexivity.
Qed.

(** C3 (the code departs from it): with the steps input omitted the
    variable [lax_steps] is never assigned, so a call with four inputs
    never returns: when nothing fails earlier, the return statement
    raises UnboundLocalError.  With all-ones steps the call gets as far
    as [jax.lax.slice]: for a rank-0 x it returns x, for the rank-1 x
    below it raises TypeError there.  In neither case does the call
    without steps do what the call with all-ones steps does. *)
Theorem onnx_slice_steps_omitted_raise :
  (forall x starts ends axes : ndarray,
     exists e, onnx_slice [x; starts; ends; axes] = Raise e)
  /\
  (onnx_slice [vector [10; 20; 30; 40]%Z; vector [1]%Z; vector [3]%Z;
               vector [0]%Z] = Raise UnboundLocalError /\
   onnx_slice [vector [10; 20; 30; 40]%Z; vector [1]%Z; vector [3]%Z;
               vector [0]%Z; vector [1]%Z] = Raise TypeError)
  /\
  (onnx_slice [scalar 7; vector []; vector []; vector []]
     = Raise UnboundLocalError /\
   onnx_slice [scalar 7; vector []; vector []; vector []; vector []]
     = Ok (scalar 7)).
Proof.
  split; [|split; split; reflexivity].
  intros x starts ends axes. unfold onnx_slice. simpl.
  repeat step_result.
Qed.

(** ** Slice: the full-rank vectors *)







(** C4 (the code departs from it): the scenario of the claim,
    Slice(x=[[1,2,3],[4,5,6]], starts=[1], ends=[3], axes=[1]), raises
    UnboundLocalError, because no steps are given.  With steps = [1] the
    full-rank vectors are built, and the call then raises TypeError in
    [jax.lax.slice], which cannot read them as static integers. *)
Theorem onnx_slice_partial_axes_scenario :
  onnx_slice [mk_ndarray [2; 3] [1; 2; 3; 4; 5; 6]%Z;
              vector [1]%Z; vector [3]%Z; vector [1]%Z]
  = Raise UnboundLocalError
  /\
  onnx_slice [mk_ndarray [2; 3] [1; 2; 3; 4; 5; 6]%Z;
              vector [1]%Z; vector [3]%Z; vector [1]%Z; vector [1]%Z]
  = Raise TypeError.
Proof. split; reflexivity. Qed.

(** ** The handlers *)

Section HandlerFacts.

Variable update_node_attrs_dict : OnnxNode -> PyFunction -> OnnxNode.

(** C8: the four Slice version methods return the one function object
    onnx_slice and the two Mod version methods return the one function
    object onnx_mod; whichever supported version prepares a node, the
    node it leaves and the translation function it returns are the
    same. *)
Theorem version_methods_share_translation
  (node : OnnxNode) (inputs : list ndarray) :
  (snd (Slice_version_1 update_node_attrs_dict node inputs) = onnx_slice_obj /\
   snd (Slice_version_10 update_node_attrs_dict node inputs) = onnx_slice_obj /\
   snd (Slice_version_11 update_node_attrs_dict node inputs) = onnx_slice_obj /\
   snd (Slice_version_13 update_node_attrs_dict node inputs) = onnx_slice_obj)
  /\
  (snd (Mod_version_10 update_node_attrs_dict node inputs) = onnx_mod_obj /\
   snd (Mod_version_13 update_node_attrs_dict node inputs) = onnx_mod_obj)
  /\
  (Slice_version_1 update_node_attrs_dict node inputs
     = Slice_version_10 update_node_attrs_dict node inputs /\
   Slice_version_10 update_node_attrs_dict node inputs
     = Slice_version_11 update_node_attrs_dict node inputs /\
   Slice_version_11 update_node_attrs_dict node inputs
     = Slice_version_13 update_node_attrs_dict node inputs /\
   Mod_version_10 update_node_attrs_dict node inputs
     = Mod_version_13 update_node_attrs_dict node inputs).
Proof. repeat split. Qed.

(** C10: preparation does not look at the input operands: with the same
    node and two different input sequences, every Mod and Slice version
    method leaves the same node (hence the same attrs_dict) and returns
    the same translation function. *)
Theorem preparation_ignores_inputs
  (node : OnnxNode) (inputs1 inputs2 : list ndarray) :
  (forall impl,
     Mod__prepare update_node_attrs_dict node inputs1 impl
       = Mod__prepare update_node_attrs_dict node inputs2 impl /\
     Slice__prepare update_node_attrs_dict node inputs1 impl
       = Slice__prepare update_node_attrs_dict node inputs2 impl)
  /\
  (Mod_version_10 update_node_attrs_dict node inputs1
     = Mod_version_10 update_node_attrs_dict node inputs2 /\
   Mod_version_13 update_node_attrs_dict node inputs1
     = Mod_version_13 update_node_attrs_dict node inputs2)
  /\
  (Slice_version_1 update_node_attrs_dict node inputs1
     = Slice_version_1 update_node_attrs_dict node inputs2 /\
   Slice_version_10 update_node_attrs_dict node inputs1
     = Slice_version_10 update_node_attrs_dict node inputs2 /\
   Slice_version_11 update_node_attrs_dict node inputs1
     = Slice_version_11 update_node_attrs_dict node inputs2 /\
   Slice_version_13 update_node_attrs_dict node inputs1
     = Slice_version_13 update_node_attrs_dict node inputs2).
Proof. repeat split. Qed.

(** The helper fills attrs_dict; it is assumed to leave the raw
    attributes of the node as the model declares them. *)
Hypothesis update_keeps_attrs :
  forall node impl, attrs (update_node_attrs_dict node impl) = attrs node.

(** C6: when the raw attributes of a Mod node have no fmod key,
    preparation sets attrs_dict["fmod"] to 0; when they have one,
    attrs_dict["fmod"] is the declared value.  Both version methods
    prepare the node this way. *)
Theorem Mod_prepare_fmod_default
  (node : OnnxNode) (inputs : list ndarray) (impl : PyFunction) :
  (attrs node !! "fmod" = None ->
   attrs_dict (Mod__prepare update_node_attrs_dict node inputs impl) !! "fmod"
     = Some (AInt 0))
  /\
  (forall v, attrs node !! "fmod" = Some v ->
   attrs_dict (Mod__prepare update_node_attrs_dict node inputs impl) !! "fmod"
     = Some v)
  /\
  fst (Mod_version_10 update_node_attrs_dict node inputs)
    = Mod__prepare update_node_attrs_dict node inputs onnx_mod_obj
  /\
  fst (Mod_version_13 update_node_attrs_dict node inputs)
    = Mod__prepare update_node_attrs_dict node inputs onnx_mod_obj.
Proof using update_keeps_attrs.
  unfold Mod__prepare, set_attrs_dict, dict_get. simpl.
  rewrite update_keeps_attrs, lookup_insert_eq.
  split; [|split; [|split; reflexivity]].
  - intros ->. reflexivity.
  - intros v ->. reflexivity.
Qed.

End HandlerFacts.

(** ** Preparation with the helper as the spec describes it *)

Lemma spec_update_keeps_attrs (node : OnnxNode) (impl : PyFunction) :
  attrs (spec_update_node_attrs_dict node impl) = attrs node.
Proof.
  unfold spec_update_node_attrs_dict. revert node.
  induction (fn_kwonly impl) as [|name names IH]; intros node; simpl.
  - reflexivity.
  - rewrite IH. reflexivity.
Qed.

Lemma Mod_prepare_fmod_default_witness :
  attrs_dict
    (Mod__prepare spec_update_node_attrs_dict
       (mk_OnnxNode "Mod" 13 ∅ ∅) [] onnx_mod_obj) !! "fmod"
  = Some (AInt 0)
  /\
  attrs_dict
    (Mod__prepare spec_update_node_attrs_dict
       (mk_OnnxNode "Mod" 13 {["fmod" := AInt 1]} ∅) [] onnx_mod_obj) !! "fmod"
  = Some (AInt 1).
Proof.
  split.
  - apply (proj1 (Mod_prepare_fmod_default spec_update_node_attrs_dict
                    spec_update_keeps_attrs
                    (mk_OnnxNode "Mod" 13 ∅ ∅) [] onnx_mod_obj)).
    reflexivity.
  - apply (proj1 (proj2 (Mod_prepare_fmod_default spec_update_node_attrs_dict
                    spec_update_keeps_attrs
                    (mk_OnnxNode "Mod" 13 {["fmod" := AInt 1]} ∅) []
                    onnx_mod_obj))).
    reflexivity.
Defined.

(** C9: preparing a node that is already prepared, with the same raw
    attributes, leaves the node (and so its attrs_dict) as the first
    preparation left it, for Mod and for Slice, under every version
    method and whatever inputs the second run is given. *)
Theorem preparation_idempotent
  (node : OnnxNode) (inputs inputs' : list ndarray) :
  (attrs (Mod__prepare spec_update_node_attrs_dict node inputs onnx_mod_obj)
     = attrs node /\
   attrs (Slice__prepare spec_update_node_attrs_dict node inputs onnx_slice_obj)
     = attrs node)
  /\
  (Mod__prepare spec_update_node_attrs_dict
     (Mod__prepare spec_update_node_attrs_dict node inputs onnx_mod_obj)
     inputs' onnx_mod_obj
   = Mod__prepare spec_update_node_attrs_dict node inputs onnx_mod_obj)
  /\
  (Slice__prepare spec_update_node_attrs_dict
     (Slice__prepare spec_update_node_attrs_dict node inputs onnx_slice_obj)
     inputs' onnx_slice_obj
   = Slice__prepare spec_update_node_attrs_dict node inputs onnx_slice_obj)
  /\
  (attrs_dict (fst (Mod_version_10 spec_update_node_attrs_dict
     (fst (Mod_version_10 spec_update_node_attrs_dict node inputs)) inputs'))
   = attrs_dict (fst (Mod_version_10 spec_update_node_attrs_dict node inputs))
   /\
   attrs_dict (fst (Mod_version_13 spec_update_node_attrs_dict
     (fst (Mod_version_13 spec_update_node_attrs_dict node inputs)) inputs'))
   = attrs_dict (fst (Mod_version_13 spec_update_node_attrs_dict node inputs)))
  /\
  (attrs_dict (fst (Slice_version_1 spec_update_node_attrs_dict
     (fst (Slice_version_1 spec_update_node_attrs_dict node inputs)) inputs'))
   = attrs_dict (fst (Slice_version_1 spec_update_node_attrs_dict node inputs))
   /\
   attrs_dict (fst (Slice_version_10 spec_update_node_attrs_dict
     (fst (Slice_version_10 spec_update_node_attrs_dict node inputs)) inputs'))
   = attrs_dict (fst (Slice_version_10 spec_update_node_attrs_dict node inputs))
   /\
   attrs_dict (fst (Slice_version_11 spec_update_node_attrs_dict
     (fst (Slice_version_11 spec_update_node_attrs_dict node inputs)) inputs'))
   = attrs_dict (fst (Slice_version_11 spec_update_node_attrs_dict node inputs))
   /\
   attrs_dict (fst (Slice_version_13 spec_update_node_attrs_dict
     (fst (Slice_version_13 spec_update_node_attrs_dict node inputs)) inputs'))
   = attrs_dict (fst (Slice_version_13 spec_update_node_attrs_dict node inputs))).
Proof.
  assert (Hmod :
    Mod__prepare spec_update_node_attrs_dict
      (Mod__prepare spec_update_node_attrs_dict node inputs onnx_mod_obj)
      inputs' onnx_mod_obj
    = Mod__prepare spec_update_node_attrs_dict node inputs onnx_mod_obj).
  { unfold Mod__prepare, spec_update_node_attrs_dict, set_attrs_dict. simpl.
    f_equal. rewrite !insert_insert_eq. reflexivity. }
  split; [split; reflexivity|].
  split; [exact Hmod|].
  split; [reflexivity|].
  split; [|repeat split].
  unfold Mod_version_10, Mod_version_13. cbn [fst].
  rewrite Hmod. split; reflexivity.
Qed.

(** * Further properties of the two translation functions *)

(** ** The buffer in index order *)

Lemma map_add_seq (c n : nat) : map (Nat.add c) (seq 0 n) = seq c n.
Proof.
  induction c as [|c IH]; simpl.
  - apply map_id.
  - rewrite <- seq_shift, <- IH, map_map. reflexivity.
Qed.

(** Listing the multi-indices of a shape visits the buffer positions
    0, 1, 2, ... in order. *)
Lemma offsets_of_indices (s : list nat) :
  map (offset s) (indices s) = seq 0 (numel s).
Proof.
  induction s as [|d0 s IH]; [reflexivity|].
  change (numel (d0 :: s)) with (d0 * numel s).
  cut (forall a d,
         map (offset (d0 :: s))
             (flat_map (fun i => map (cons i) (indices s)) (seq a d))
         = seq (a * numel s) (d * numel s)).
  { intros H. apply (H 0 d0). }
  intros a d. revert a. induction d as [|d IHd]; intros a; [reflexivity|].
  simpl flat_map. rewrite map_app, IHd, map_map. simpl offset.
  rewrite <- (map_map (offset s) (Nat.add (a * numel s))), IH, map_add_seq.
  replace (S a * numel s) with (a * numel s + numel s) by (simpl; lia).
  rewrite <- seq_app. f_equal.
Qed.

Lemma bcast_axes_valid (s idx : list nat) :
  Forall2 lt idx s -> bcast_axes s idx = idx.
Proof.
  intros H. induction H as [|i d idx s Hlt _ IH]; simpl; [reflexivity|].
  rewrite IH. destruct (Nat.eqb_spec d 1); [|reflexivity].
  f_equal. lia.
Qed.

Lemma bcast_index_valid (s idx : list nat) :
  Forall2 lt idx s -> bcast_index s idx = idx.
Proof.
  intros H. unfold bcast_index.
  pose proof H as Hlen. apply Forall2_length in Hlen.
  rewrite Hlen, Nat.sub_diag. simpl.
  apply bcast_axes_valid. exact H.
Qed.

(** A table whose entry at an index depends only on the buffer position
    of the index is the map of that dependence over the positions. *)
Lemma tabulate_by_offset (s : list nat) (f : list nat -> Z) (g : nat -> Z) :
  (forall idx, Forall2 lt idx s -> f idx = g (offset s idx)) ->
  data (tabulate s f) = map g (seq 0 (numel s)).
Proof.
  intros H. simpl. rewrite <- offsets_of_indices, map_map.
  apply map_ext_in. intros idx Hin. apply H, In_indices, Hin.
Qed.

Lemma map_nth_seq (l : list Z) (d : Z) :
  map (fun k => nth k l d) (seq 0 (length l)) = l.
Proof.
  induction l as [|x l IH]; [reflexivity|].
  simpl. rewrite <- seq_shift, map_map. simpl. rewrite IH. reflexivity.
Qed.


(** ** Mod: arity, the flag, and whole-array results *)

(** X1: the Mod translation function takes exactly two operands; with
    any other number of inputs it raises AssertionError, whatever the
    flag is. *)
Theorem onnx_mod_arity (input_args : list ndarray) (fmod : attr_value) :
  length input_args <> 2 -> onnx_mod input_args fmod = Raise AssertionError.
Proof.
  intros H. unfold onnx_mod.
  destruct (Nat.eqb_spec (length input_args) 2); [contradiction|].
  reflexivity.
Qed.

Lemma onnx_mod_arity_witness :
  onnx_mod [vector [5]%Z; vector [3]%Z; vector [2]%Z] (AInt 0)
  = Raise AssertionError.
Proof. apply onnx_mod_arity. simpl. lia. Defined.

(** X2: the flag is only compared with 0: every other value, None
    included, selects the truncating remainder, as fmod = 1 does. *)
Theorem onnx_mod_flag_not_zero (input_args : list ndarray) (fmod : attr_value) :
  fmod <> AInt 0 ->
  onnx_mod input_args fmod = onnx_mod input_args (AInt 1) /\
  forall a b, onnx_mod [a; b] fmod = jnp_fmod a b.
Proof.
  intros H.
  assert (Hz : eq_zero fmod = false).
  { destruct fmod as [|z| |]; try reflexivity. simpl.
    destruct (Z.eqb_spec z 0); [subst; contradiction | reflexivity]. }
  split.
  - unfold onnx_mod. rewrite Hz. reflexivity.
  - intros a b. rewrite onnx_mod_two, Hz. reflexivity.
Qed.

Lemma onnx_mod_flag_not_zero_witness :
  onnx_mod [vector [5; -5]%Z; vector [3; 3]%Z] ANone
    = onnx_mod [vector [5; -5]%Z; vector [3; 3]%Z] (AInt 1) /\
  forall a b, onnx_mod [a; b] ANone = jnp_fmod a b.
Proof. apply onnx_mod_flag_not_zero. discriminate. Defined.

Lemma remainder_fmod_nonneg (x y : Z) :
  (0 <= x)%Z -> (0 <= y)%Z -> remainder_elt x y = fmod_elt x y.
Proof.
  intros Hx Hy. unfold remainder_elt, fmod_elt, lax_rem, guard_zero.
  destruct (Z.eqb_spec y 0) as [->|Hne].
  - rewrite Z.rem_1_r. reflexivity.
  - pose proof (Z.rem_nonneg x y Hne Hx) as Hr.
    destruct (Z.ltb_spec (Z.rem x y) 0); [lia|].
    destruct (Z.ltb_spec y 0); [lia|]. reflexivity.
Qed.

Lemma item_in_range (t : ndarray) (idx : list nat) :
  Forall (fun z => 0 <= z < 2 ^ 31)%Z (data t) ->
  (0 <= item t idx < 2 ^ 31)%Z.
Proof.
  intros H. unfold item.
  destruct (nth_in_or_default (offset (shape t) idx) (data t) 0%Z) as [Hin | ->].
  - rewrite Forall_forall in H. apply H.
    apply list_elem_of_In. exact Hin.
  - lia.
Qed.

(** X3: on operands whose entries are nonnegative int32 values the flag
    makes no difference: floor-style modulo and truncating remainder
    give the same array (or the same error), for every pair of shapes. *)
Theorem onnx_mod_nonneg_any_flag (a b : ndarray) (fmod fmod' : attr_value) :
  Forall (fun z => 0 <= z < 2 ^ 31)%Z (data a) ->
  Forall (fun z => 0 <= z < 2 ^ 31)%Z (data b) ->
  onnx_mod [a; b] fmod = onnx_mod [a; b] fmod'.
Proof.
  intros Ha Hb.
  assert (Heq : jnp_mod a b = jnp_fmod a b).
  { unfold jnp_mod, jnp_fmod, broadcast_binop.
    destruct (broadcast_shapes (shape a) (shape b)) as [s|]; [|reflexivity].
    f_equal. unfold tabulate. f_equal.
    apply map_ext. intros idx.
    pose proof (item_in_range a (bcast_index (shape a) idx) Ha) as Hx.
    pose proof (item_in_range b (bcast_index (shape b) idx) Hb) as Hy.
    rewrite !to_int32_small by (unfold in_int32; lia).
    apply remainder_fmod_nonneg; lia. }
  rewrite !onnx_mod_two, Heq.
  destruct (eq_zero fmod), (eq_zero fmod'); reflexivity.
Qed.

Lemma onnx_mod_nonneg_any_flag_witness :
  onnx_mod [mk_ndarray [2; 1] [7; 0]%Z; vector [3; 0; 5]%Z] (AInt 0)
  = onnx_mod [mk_ndarray [2; 1] [7; 0]%Z; vector [3; 0; 5]%Z] (AInt 1).
Proof.
  apply onnx_mod_nonneg_any_flag.
  - repeat constructor; lia.
  - repeat constructor; lia.
Defined.

Lemma broadcast_dims_same (s : list nat) : broadcast_dims s s = Some s.
Proof.
  induction s as [|d s IH]; [reflexivity|].
  simpl. rewrite IH. unfold broadcast_dim. rewrite Nat.eqb_refl. reflexivity.
Qed.

Lemma pad_shape_full (s : list nat) : pad_shape (length s) s = s.
Proof. unfold pad_shape. rewrite Nat.sub_diag. reflexivity. Qed.

Lemma broadcast_shapes_same (s : list nat) : broadcast_shapes s s = Some s.
Proof.
  unfold broadcast_shapes. rewrite Nat.max_id, pad_shape_full.
  apply broadcast_dims_same.
Qed.







(** ** Slice: the number of inputs *)

(** X6: a call with fewer than three inputs fails at the unpacking of
    x, starts and ends with ValueError; the branch guarded by
    [len(input_args) < 3] is therefore never run. *)
Theorem onnx_slice_too_few_inputs (input_args : list ndarray) :
  length input_args < 3 -> onnx_slice input_args = Raise ValueError.
Proof. exact (onnx_slice_short input_args). Qed.

Lemma onnx_slice_too_few_inputs_witness :
  onnx_slice [mk_ndarray [2; 3] [1; 2; 3; 4; 5; 6]%Z; vector [0; 0]%Z]
  = Raise ValueError.
Proof. apply onnx_slice_too_few_inputs. simpl. lia. Defined.

(** X7: the translation function returns an array only when it is given
    at least five inputs, that is, only when steps are supplied. *)
Theorem onnx_slice_returns_needs_steps
  (input_args : list ndarray) (out : ndarray) :
  onnx_slice input_args = Ok out -> 5 <= length input_args.
Proof.
  intros H.
  destruct input_args as [|x [|starts [|ends [|axes [|steps rest]]]]];
    try discriminate H; [| |simpl; lia]; exfalso.
  - assert (Hr : exists e, onnx_slice [x; starts; ends] = Raise e).
    { unfold onnx_slice. simpl. repeat step_result. }
    destruct Hr as [e He]. congruence.
  - assert (Hr : exists e, onnx_slice [x; starts; ends; axes] = Raise e).
    { unfold onnx_slice. simpl. repeat step_result. }
    destruct Hr as [e He]. congruence.
Qed.

Lemma onnx_slice_returns_needs_steps_witness :
  5 <= length [scalar 7; vector []; vector []; vector []; vector []].
Proof.
  apply (onnx_slice_returns_needs_steps _ (scalar 7)).
  reflexivity.
Defined.

(** X8: inputs after the fifth are never looked at: the call behaves as
    the call on the first five inputs (there is no check on the number
    of inputs, unlike in the Mod translation function). *)
Theorem onnx_slice_ignores_extra_inputs
  (x starts ends axes steps : ndarray) (rest : list ndarray) :
  onnx_slice (x :: starts :: ends :: axes :: steps :: rest)
  = onnx_slice [x; starts; ends; axes; steps].
Proof. reflexivity. Qed.

(** ** Slice: how the bounds reach [jax.lax.slice] *)

Lemma vector_well_formed (l : list Z) : well_formed (vector l).
Proof. unfold well_formed. simpl. lia. Qed.

(** Broadcasting an array to its own shape gives the array back. *)
Lemma broadcast_to_same (t : ndarray) :
  well_formed t -> broadcast_to t (shape t) = Ok t.
Proof.
  intros Hw. unfold broadcast_to.
  rewrite broadcast_shapes_same, bool_decide_eq_true_2 by reflexivity.
  f_equal. destruct t as [s buf]. unfold well_formed in Hw. simpl in *.
  unfold tabulate. f_equal.
  change (map ?F (indices s)) with (data (tabulate s F)).
  rewrite (tabulate_by_offset _ _ (fun k => nth k buf 0%Z)).
  - rewrite <- Hw. apply map_nth_seq.
  - intros idx Hv. rewrite bcast_index_valid by exact Hv. reflexivity.
Qed.

Lemma broadcast_to_vector_same (l : list Z) (k : nat) :
  length l = k -> broadcast_to (vector l) [k] = Ok (vector l).
Proof.
  intros <-. apply (broadcast_to_same (vector l)), vector_well_formed.
Qed.



(** Scattering to the positions 0, 1, 2, ... in order overwrites the
    whole buffer with the values, converted to int32. *)
Lemma scatter_in_order (done buf vals : list Z) :
  length buf = length vals ->
  scatter (done ++ buf) (map Z.of_nat (seq (length done) (length vals))) vals
  = done ++ map to_int32 vals.
Proof.
  revert done buf. induction vals as [|v vals IH]; intros done [|b buf] Hlen;
    try discriminate; [reflexivity|].
  simpl. unfold scatter_one.
  destruct (Z.ltb_spec (Z.of_nat (length done)) 0); [lia|].
  rewrite length_app. simpl length.
  destruct (Z.leb_spec 0 (Z.of_nat (length done))); [|lia].
  destruct (Z.ltb_spec (Z.of_nat (length done))
              (Z.of_nat (length done + S (length buf)))); [|lia].
  simpl andb. cbv iota. rewrite Nat2Z.id.
  replace (length done) with (length done + 0) at 1 by lia.
  rewrite insert_app_r. simpl.
  change (done ++ to_int32 v :: buf) with (done ++ [to_int32 v] ++ buf).
  rewrite app_assoc.
  replace (S (length done)) with (length (done ++ [to_int32 v]))
    by (rewrite length_app; simpl; lia).
  rewrite IH by (simpl in Hlen; lia).
  rewrite <- app_assoc. reflexivity.
Qed.

Lemma at_set_all_axes (v : ndarray) (vals : list Z) (r : nat) :
  length vals = r -> length (data v) = r ->
  at_set v (Some (vector (map Z.of_nat (seq 0 r)))) (vector vals)
  = Ok {| shape := shape v; data := map to_int32 vals |}.
Proof.
  intros Hv Hd. unfold at_set.
  change (shape (vector (map Z.of_nat (seq 0 r))))
    with [length (map Z.of_nat (seq 0 r))].
  rewrite length_map, length_seq.
  rewrite (broadcast_to_vector_same vals r Hv). cbn [bind].
  f_equal. f_equal. simpl data. subst r.
  apply (scatter_in_order [] (data v) vals). exact Hd.
Qed.

Lemma as_static_sequence_traced (t : ndarray) (n : nat) (rest : list nat) :
  shape t = S n :: rest -> as_static_sequence t = Raise TypeError.
Proof. intros H. unfold as_static_sequence. rewrite H. reflexivity. Qed.

(** [jax.lax.slice] cannot read start indices that are a traced array
    with at least one entry. *)
Lemma lax_slice_traced (x ls le lp : ndarray) (n : nat) (rest : list nat) :
  shape ls = S n :: rest -> lax_slice x ls le lp = Raise TypeError.
Proof.
  intros H. unfold lax_slice.
  rewrite (as_static_sequence_traced ls n rest H). reflexivity.
Qed.

(** X9: when axes lists every axis of x in order and starts, ends and
    steps have one entry per axis, the three full-rank vectors handed to
    [jax.lax.slice] are the supplied starts, ends and steps converted to
    int32; for x of rank 1 or more the call then fails there with
    TypeError, because the vectors are traced arrays and not static
    integers. *)
Theorem onnx_slice_all_axes (x : ndarray) (starts ends steps : list Z) :
  length starts = length (shape x) ->
  length ends = length (shape x) ->
  length steps = length (shape x) ->
  shape x <> [] ->
  (at_set (jnp_zeros (length (shape x)))
     (Some (vector (map Z.of_nat (seq 0 (length (shape x))))))
     (vector starts)
   = Ok (mk_ndarray [length (shape x)] (map to_int32 starts)) /\
   at_set (jnp_array_of_shape (shape x))
     (Some (vector (map Z.of_nat (seq 0 (length (shape x))))))
     (vector ends)
   = Ok (mk_ndarray [length (shape x)] (map to_int32 ends)) /\
   at_set (jnp_ones (length (shape x)))
     (Some (vector (map Z.of_nat (seq 0 (length (shape x))))))
     (vector steps)
   = Ok (mk_ndarray [length (shape x)] (map to_int32 steps)))
  /\
  onnx_slice [x; vector starts; vector ends;
              vector (map Z.of_nat (seq 0 (length (shape x))));
              vector steps]
  = Raise TypeError.
Proof.
  intros Hs He Hp Hx.
  assert (H0 : at_set (jnp_zeros (length (shape x)))
     (Some (vector (map Z.of_nat (seq 0 (length (shape x))))))
     (vector starts)
   = Ok (mk_ndarray [length (shape x)] (map to_int32 starts))).
  { rewrite (at_set_all_axes _ starts _ Hs) by apply repeat_length.
    cbn [jnp_zeros vector shape]. rewrite repeat_length. reflexivity. }
  assert (H1 : at_set (jnp_array_of_shape (shape x))
     (Some (vector (map Z.of_nat (seq 0 (length (shape x))))))
     (vector ends)
   = Ok (mk_ndarray [length (shape x)] (map to_int32 ends))).
  { rewrite (at_set_all_axes _ ends _ He) by apply length_map.
    cbn [jnp_array_of_shape vector shape]. rewrite length_map. reflexivity. }
  assert (H2 : at_set (jnp_ones (length (shape x)))
     (Some (vector (map Z.of_nat (seq 0 (length (shape x))))))
     (vector steps)
   = Ok (mk_ndarray [length (shape x)] (map to_int32 steps))).
  { rewrite (at_set_all_axes _ steps _ Hp) by apply repeat_length.
    cbn [jnp_ones vector shape]. rewrite repeat_length. reflexivity. }
  split; [repeat split; assumption|].
  unfold onnx_slice.
  cbn [firstn py_len vector shape bind length Nat.ltb Nat.leb getitem
       nth_error].
  rewrite Hs, He, Nat.eqb_refl. cbn [py_assert bind].
  change {| shape := [length (map Z.of_nat (seq 0 (length (shape x))))];
            data := map Z.of_nat (seq 0 (length (shape x))) |}
    with (vector (map Z.of_nat (seq 0 (length (shape x))))).
  change {| shape := [length starts]; data := starts |} with (vector starts).
  change {| shape := [length ends]; data := ends |} with (vector ends).
  change {| shape := [length steps]; data := steps |} with (vector steps).
  rewrite H0. cbn [bind]. rewrite H1. cbn [bind]. rewrite H2. cbn [bind].
  destruct (shape x) as [|d s'] eqn:Hshape; [contradiction|].
  apply (lax_slice_traced _ _ _ _ (length s') []). reflexivity.
Qed.

Lemma onnx_slice_all_axes_witness :
  (at_set (jnp_zeros 2) (Some (vector (map Z.of_nat (seq 0 2))))
     (vector [0; 0]%Z)
   = Ok (mk_ndarray [2] (map to_int32 [0; 0]%Z)) /\
   at_set (jnp_array_of_shape [2; 3]) (Some (vector (map Z.of_nat (seq 0 2))))
     (vector [2; 3]%Z)
   = Ok (mk_ndarray [2] (map to_int32 [2; 3]%Z)) /\
   at_set (jnp_ones 2) (Some (vector (map Z.of_nat (seq 0 2))))
     (vector [1; 2]%Z)
   = Ok (mk_ndarray [2] (map to_int32 [1; 2]%Z)))
  /\
  onnx_slice [mk_ndarray [2; 3] [1; 2; 3; 4; 5; 6]%Z;
              vector [0; 0]%Z; vector [2; 3]%Z;
              vector (map Z.of_nat (seq 0 2)); vector [1; 2]%Z]
  = Raise TypeError.
Proof.
  apply (onnx_slice_all_axes (mk_ndarray [2; 3] [1; 2; 3; 4; 5; 6]%Z)
           [0; 0]%Z [2; 3]%Z [1; 2]%Z); try reflexivity.
  discriminate.
Defined.

(** ** Slice: the axes input *)









(** ** Slice: when the call returns *)



(** With no index to read and a rank-0 operand, [jax.lax.slice] gives
    the operand's entry back, as an int32. *)
Lemma lax_slice_rank0 (x ls le lp : ndarray) :
  shape x = [] -> shape ls = [0] -> shape le = [0] -> shape lp = [0] ->
  lax_slice x ls le lp = Ok (scalar (to_int32 (item x []))).
Proof.
  intros Hx Hs He Hp. unfold lax_slice, as_static_sequence.
  rewrite Hs, He, Hp, Hx. reflexivity.
Qed.



(** X14: a call that names no axis (empty starts, ends, axes and steps)
    returns x as it is when x is a well-formed array of rank 0 whose
    entry is an int32 value, and raises TypeError in [jax.lax.slice] when
    x has rank 1 or more. *)
Theorem onnx_slice_no_axes (x : ndarray) :
  (well_formed x -> shape x = [] -> in_int32 (item x []) ->
   onnx_slice [x; vector []; vector []; vector []; vector []] = Ok x)
  /\
  (shape x <> [] ->
   onnx_slice [x; vector []; vector []; vector []; vector []]
   = Raise TypeError).
Proof.
  assert (Hcall :
    onnx_slice [x; vector []; vector []; vector []; vector []]
    = lax_slice x (jnp_zeros (length (shape x)))
        (jnp_array_of_shape (shape x)) (jnp_ones (length (shape x)))).
  { unfold onnx_slice.
    cbn [firstn py_len vector shape bind length Nat.ltb Nat.leb getitem
         nth_error Nat.eqb py_assert].
    unfold at_set.
    change (shape (vector [])) with [0].
    rewrite !(broadcast_to_vector_same [] 0 eq_refl). cbn [bind].
    change (shape (vector [])) with [0].
    rewrite (broadcast_to_vector_same [] 0 eq_refl). cbn [bind].
    reflexivity. }
  rewrite Hcall. split.
  - intros Hw Hx Hr. rewrite (lax_slice_rank0 x _ _ _ Hx);
      try (rewrite Hx; reflexivity).
    rewrite (to_int32_small _ Hr).
    f_equal. destruct x as [s buf]. unfold well_formed in Hw.
    cbn [shape data] in *. subst s.
    destruct buf as [|v [|? ?]]; try discriminate Hw. reflexivity.
  - intros Hx. destruct (shape x) as [|d s'] eqn:Hshape; [contradiction|].
    apply (lax_slice_traced _ _ _ _ (length s') []).
    cbn [jnp_zeros vector shape length]. rewrite repeat_length. reflexivity.
Qed.

Lemma onnx_slice_no_axes_witness :
  onnx_slice [scalar 7; vector []; vector []; vector []; vector []]
    = Ok (scalar 7)
  /\
  onnx_slice [mk_ndarray [2; 3] [1; 2; 3; 4; 5; 6]%Z;
              vector []; vector []; vector []; vector []]
    = Raise TypeError.
Proof.
  split.
  - apply (proj1 (onnx_slice_no_axes (scalar 7))).
    + reflexivity.
    + reflexivity.
    + unfold in_int32. vm_compute. split; [discriminate | reflexivity].
  - apply (proj2 (onnx_slice_no_axes
                    (mk_ndarray [2; 3] [1; 2; 3; 4; 5; 6]%Z))).
    discriminate.
Defined.



(** ** Mod: what decides failure *)

(** X16: whether a call of the Mod translation function on two operands
    fails, the error it then raises and the shape it otherwise returns
    depend only on the two operand shapes: not on the entries (a zero
    divisor raises nothing) and not on the flag. *)
Theorem onnx_mod_outcome_by_shapes
  (a b a' b' : ndarray) (fmod fmod' : attr_value) :
  shape a = shape a' -> shape b = shape b' ->
  match onnx_mod [a; b] fmod, onnx_mod [a'; b'] fmod' with
  | Ok out, Ok out' => shape out = shape out'
  | Raise e, Raise e' =>
      e = e' /\ e = broadcast_error (shape a) (shape b)
  | _, _ => False
  end.
Proof.
  intros Ha Hb. rewrite !onnx_mod_two.
  unfold jnp_mod, jnp_fmod, broadcast_binop. rewrite <- Ha, <- Hb.
  destruct (broadcast_shapes (shape a) (shape b));
    destruct (eq_zero fmod), (eq_zero fmod'); simpl; auto.
Qed.

Lemma onnx_mod_outcome_by_shapes_witness :
  match onnx_mod [vector [5; -5]%Z; vector [3; 0]%Z] (AInt 0),
        onnx_mod [vector [1; 1]%Z; vector [2; 2]%Z] (AInt 1) with
  | Ok out, Ok out' => shape out = shape out'
  | Raise e, Raise e' => e = e' /\ e = broadcast_error [2] [2]
  | _, _ => False
  end.
Proof.
  apply (onnx_mod_outcome_by_shapes (vector [5; -5]%Z) (vector [3; 0]%Z)
           (vector [1; 1]%Z) (vector [2; 2]%Z)); reflexivity.
Defined.
